(** * Story Maker (src/app.py): the script's request/response cycle

    The Streamlit script of [src/app.py] is embedded as a computation in a
    small state-and-exception monad.  One execution of the script is one
    [run_script]; a browser session is a sequence of executions that share
    [st.session_state].  The text-generation pipeline and the browser are
    the script's environment and are taken as inputs of a run. *)

From Stdlib Require Import ZArith Ascii String List Bool Lia.
From Stdlib Require Import Floats.PrimFloat.
From stdpp Require Import gmap strings list.

Set Warnings "-inexact-float".
Open Scope Z_scope.
Open Scope string_scope.

(** ** The Python values the script handles *)

Module Py.

(** An instance of [Exception]; [str(e)] is all the script reads of it. *)
Record Exception : Type := mkException { str : string }.

(** [[][0]] *)
Definition IndexError : Exception :=
  mkException "list index out of range".

(** [d[key]] on a missing key: [str(KeyError('k'))] is the repr of the key. *)
Definition KeyError (key : string) : Exception :=
  mkException ("'" +:+ key +:+ "'").

(** Truth value of a [str]: only the empty string is false. *)
Definition truthy (s : string) : bool :=
  match s with
  | EmptyString => false
  | String _ _ => true
  end.

(** [str.isspace] restricted to the ASCII whitespace characters:
    space, tab, line feed, vertical tab, form feed, carriage return and
    the four separators 0x1c-0x1f. *)
Definition isspace_char (c : ascii) : bool :=
  let n := nat_of_ascii c in
  (Nat.eqb n 32 || (Nat.leb 9 n && Nat.leb n 13)
   || (Nat.leb 28 n && Nat.leb n 31))%bool.

(** Every character of [s] is whitespace (true of the empty string,
    which is the spec's "empty or whitespace-only"). *)
Fixpoint blank (s : string) : bool :=
  match s with
  | EmptyString => true
  | String c rest => isspace_char c && blank rest
  end.

(** A dict with string keys and string values. *)
Abbreviation dict := (gmap string string).

End Py.

(** ** The text-generation pipeline *)

(** The keyword arguments of one call of the pipeline object. *)
Record GenerationCall : Type := mkCall {
  text_inputs : string;
  max_length : Z;
  num_return_sequences : Z;
  temperature : float;
  do_sample : bool
}.

(** What a call does: it raises an instance of [Exception] (what the
    [except Exception] clauses of the script catch; [KeyboardInterrupt],
    [SystemExit] and other exceptions outside [Exception] are not part of
    the model), or it returns a list of dicts.  Sampling
    makes the answer differ from call to call, so each execution of the
    script is given the pipeline's behaviour during that execution. *)
Definition Pipeline : Type :=
  GenerationCall -> Py.Exception + list Py.dict.

(** ** Streamlit *)

Module St.

(** Where an element is drawn. *)
Inductive Container : Type :=
| Main
| Sidebar
| Column (parent : Container) (i : nat)
| Bordered (parent : Container).

Inductive Element : Type :=
| Title (body : string)
| Divider
| Header (body : string)
| Subheader (body : string)
| Write (body : string)
| Info (body : string)
| Image (url : string) (width : Z)
| Markdown (body : string)
| Error (body : string)
| Warning (body : string)
| SliderInt (label : string)
| SliderFloat (label : string)
| TextArea (label : string)
| Button (label : string).

(** The controls through which the user submits a request. *)
Definition is_input (e : Element) : bool :=
  match e with
  | SliderInt _ | SliderFloat _ | TextArea _ | Button _ => true
  | _ => false
  end.

(** The state an execution works on: the session's dict, which survives
    the execution, and what this execution has drawn and called so far. *)
Record State : Type := mkState {
  session_state : Py.dict;
  page : list (Container * Element);
  calls : list GenerationCall;
  current : Container
}.

Definition fresh (ss : Py.dict) : State :=
  mkState ss [] [] Main.

(** How a block of the script ends. [Stopped] is [st.stop()], which no
    [except Exception] clause catches. *)
Inductive Result (A : Type) : Type :=
| Ok (a : A)
| Raised (e : Py.Exception)
| Stopped.
Arguments Ok {A} a.
Arguments Raised {A} e.
Arguments Stopped {A}.

Definition Script (A : Type) : Type := State -> Result A * State.

#[global] Instance script_ret : MRet Script :=
  fun A a s => (Ok a, s).

#[global] Instance script_bind : MBind Script :=
  fun A B k m s =>
    match m s with
    | (Ok a, s') => k a s'
    | (Raised e, s') => (Raised e, s')
    | (Stopped, s') => (Stopped, s')
    end.

Definition raise {A} (e : Py.Exception) : Script A :=
  fun s => (Raised e, s).

(** [try: body / except Exception as e: handler e] *)
Definition try_except {A} (body : Script A)
    (handler : Py.Exception -> Script A) : Script A :=
  fun s =>
    match body s with
    | (Raised e, s') => handler e s'
    | r => r
    end.

Definition stop {A} : Script A :=
  fun s => (Stopped, s).

Definition draw (e : Element) : Script unit :=
  fun s => (Ok tt, mkState (session_state s) (page s ++ [(current s, e)])
                           (calls s) (current s)).

(** [with c: body]; leaving the block restores the enclosing container
    however the block ends. *)
Definition within {A} (c : Container) (body : Script A) : Script A :=
  fun s =>
    let '(r, s') :=
      body (mkState (session_state s) (page s) (calls s) c) in
    (r, mkState (session_state s') (page s') (calls s') (current s)).

(** [st.columns([w1, w2])] and [st.columns([w1, w2, w3])]: the columns of
    the enclosing container, numbered from 1 as the script names them.
    The widths only matter to the layout. *)
Definition columns2 : Script (Container * Container) :=
  fun s => (Ok (Column (current s) 1, Column (current s) 2), s).

Definition columns3 : Script (Container * Container * Container) :=
  fun s => (Ok (Column (current s) 1, Column (current s) 2,
                Column (current s) 3), s).

(** [st.set_page_config] draws nothing. *)
Definition set_page_config (page_title page_icon layout : string)
    : Script unit :=
  mret tt.

(** [with st.container(border=True): body] *)
Definition container_border {A} (body : Script A) : Script A :=
  fun s => within (Bordered (current s)) body s.

(** [with st.spinner(text): body]: the spinner is on screen only while
    the body runs and leaves nothing on the page. *)
Definition spinner {A} (text : string) (body : Script A) : Script A :=
  body.

Definition title (body : string) : Script unit := draw (Title body).
Definition divider : Script unit := draw Divider.
Definition header (body : string) : Script unit := draw (Header body).
Definition subheader (body : string) : Script unit := draw (Subheader body).
Definition write (body : string) : Script unit := draw (Write body).
Definition info (body : string) : Script unit := draw (Info body).
Definition image (url : string) (width : Z) : Script unit :=
  draw (Image url width).
Definition markdown (body : string) : Script unit := draw (Markdown body).
Definition error (body : string) : Script unit := draw (Error body).
Definition warning (body : string) : Script unit := draw (Warning body).

(** The configuration of a slider. *)
Record Slider (A : Type) : Type := mkSlider {
  label : string;
  min_value : A;
  max_value : A;
  value : A;
  step : A
}.
Arguments mkSlider {A}.
Arguments label {A}.
Arguments min_value {A}.
Arguments max_value {A}.
Arguments value {A}.
Arguments step {A}.

(** The positions a slider offers: those from [min_value] to [max_value].
    A comparison with a float that is not a number is false. *)
Definition offered_int (w : Slider Z) (v : Z) : bool :=
  ((min_value w <=? v)%Z && (v <=? max_value w)%Z)%bool.

Definition offered_float (w : Slider float) (v : float) : bool :=
  (PrimFloat.leb (min_value w) v && PrimFloat.leb v (max_value w))%bool.

(** What [st.slider] hands to the script: the position the browser last
    sent when the slider offers it, and the initial [value] otherwise, that
    is while the user has not touched the slider or when what was sent lies
    outside the slider's range.  No other value leaves the widget. *)
Definition handed_int (w : Slider Z) (ui : option Z) : Z :=
  match ui with
  | Some v => if offered_int w v then v else value w
  | None => value w
  end.

Definition handed_float (w : Slider float) (ui : option float) : float :=
  match ui with
  | Some v => if offered_float w v then v else value w
  | None => value w
  end.

Definition slider_int (w : Slider Z) (ui : option Z) : Script Z :=
  draw (SliderInt (label w)) ;; mret (handed_int w ui).

Definition slider_float (w : Slider float) (ui : option float)
    : Script float :=
  draw (SliderFloat (label w)) ;; mret (handed_float w ui).

(** The other widgets return what the browser last sent for them, and their
    initial value while the user has not touched them. *)

(** [st.text_area]: initially the empty string. *)
Definition text_area (lbl : string) (ui : option string) : Script string :=
  draw (TextArea lbl) ;; mret (default "" ui).

(** [st.button]: true only in the execution its click has triggered. *)
Definition button (lbl : string) (clicked : bool) : Script bool :=
  draw (Button lbl) ;; mret clicked.

(** [st.session_state[key] = v] *)
Definition session_set (key v : string) : Script unit :=
  fun s => (Ok tt, mkState (<[key := v]> (session_state s)) (page s)
                           (calls s) (current s)).

(** [st.session_state.get(key)] as an option: [None] when
    [key not in st.session_state]. *)
Definition session_lookup (key : string) : Script (option string) :=
  fun s => (Ok (session_state s !! key), s).

(** Calling the pipeline object. *)
Definition call (pipe : Pipeline) (c : GenerationCall)
    : Script (list Py.dict) :=
  fun s =>
    let s' := mkState (session_state s) (page s) (calls s ++ [c])
                      (current s) in
    match pipe c with
    | inl e => (Raised e, s')
    | inr out => (Ok out, s')
    end.

(** [l[i]] *)
Definition index {A} (l : list A) (i : nat) : Script A :=
  match l !! i with
  | Some x => mret x
  | None => raise Py.IndexError
  end.

(** [d[key]] *)
Definition getitem (d : Py.dict) (key : string) : Script string :=
  match d !! key with
  | Some v => mret v
  | None => raise (Py.KeyError key)
  end.

End St.

(** ** The script *)

(** What the browser sends with the request for one execution: the state
    of each widget ([None] while the user has not touched it) and whether
    the execution was triggered by a click on the button. *)
Record Browser : Type := mkBrowser {
  story_length_ui : option Z;
  creativity_ui : option float;
  prompt_ui : option string;
  generate_clicked : bool
}.

Definition story_length_slider : St.Slider Z :=
  St.mkSlider "Story Length" 50 300 150 10.

Definition creativity_slider : St.Slider float :=
  St.mkSlider "Creativity (Temperature)" 0.5%float 1.5%float 0.9%float
              0.1%float.

Definition logo_url : string :=
  "https://raw.githubusercontent.com/poulstar/.github/main/logo.png".

Section Script.

(** [load_story_generator()]: the cached pipeline, or the exception that
    building it raises. *)
Variable load_story_generator : Py.Exception + Pipeline.
Variable browser : Browser.

Import St.

(** Lines 29-34. *)
Definition load_model : Script Pipeline :=
  try_except
    (match load_story_generator with
     | inl e => raise e
     | inr story_pipe => mret story_pipe
     end)
    (fun e =>
       error ("Error: Could not load the story engine. Please refresh. Details: "
              +:+ Py.str e) ;;
       stop).

(** Lines 45-80. *)
Definition sidebar : Script (Z * float) :=
  within Sidebar
    (header "⚙️ Settings" ;;
     write "Control the story's details here." ;;
     max_length ← slider_int story_length_slider (story_length_ui browser) ;
     creativity ← slider_float creativity_slider (creativity_ui browser) ;
     divider ;;
     info "Made with ❤️ by PoulStar" ;;
     '(col1, col2, col3) ← columns3 ;
     within col2 (image logo_url 250) ;;
     mret (max_length, creativity)).

(** Lines 88-100. *)
Definition input_area (col1 : Container) : Script (string * bool) :=
  within col1
    (subheader "What is your story about?" ;;
     prompt ← text_area
       "Write your story idea here. The AI will write a story for you."
       (prompt_ui browser) ;
     generate_button ← button "✨ Write My Story!" (generate_clicked browser) ;
     mret (prompt, generate_button)).

(** Lines 107-128. *)
Definition generate (story_generator : Pipeline) (prompt : string)
    (max_length : Z) (creativity : float) (generate_button : bool)
    : Script unit :=
  if generate_button then
    if Py.truthy prompt then
      spinner "An AI author is writing your story..."
        (try_except
           (out ← call story_generator
                    (mkCall prompt max_length 1 creativity true) ;
            first ← index out 0 ;
            generated_story ← getitem first "generated_text" ;
            session_set "story" generated_story)
           (fun e => error ("An error occurred: " +:+ Py.str e)))
    else
      warning "Please enter your story idea first!"
  else
    mret tt.

(** Lines 131-135. *)
Definition display : Script unit :=
  story ← session_lookup "story" ;
  match story with
  | Some text =>
      if Py.truthy text then
        subheader "Your New Story:" ;;
        container_border (markdown text)
      else mret tt
  | None => mret tt
  end.

(** The whole of [app.py], top to bottom. *)
Definition app : Script unit :=
  set_page_config "Story Maker" "📖" "wide" ;;
  story_generator ← load_model ;
  title "📖 AI Story Maker" ;;
  divider ;;
  '(max_length, creativity) ← sidebar ;
  '(col1, col2) ← columns2 ;
  '(prompt, generate_button) ← input_area col1 ;
  within col2
    (generate story_generator prompt max_length creativity generate_button ;;
     display).

(** One execution of the script on the session's dict. *)
Definition run_script (ss : Py.dict) : Result unit * State :=
  app (fresh ss).

End Script.

(** ** What a run is observed through *)

(** The values the three input widgets hand to the script. *)
Definition prompt_value (b : Browser) : string :=
  default "" (prompt_ui b).

Definition max_length_value (b : Browser) : Z :=
  St.handed_int story_length_slider (story_length_ui b).

Definition creativity_value (b : Browser) : float :=
  St.handed_float creativity_slider (creativity_ui b).

(** The call the script makes for what the browser sent (line 113). *)
Definition request (b : Browser) : GenerationCall :=
  mkCall (prompt_value b) (max_length_value b) 1 (creativity_value b) true.

(** The second of the two main columns, where results are shown. *)
Definition result_column : St.Container := St.Column St.Main 2.

(** Everything the script draws before it reaches the result column. *)
Definition controls : list (St.Container * St.Element) :=
  [ (St.Main, St.Title "📖 AI Story Maker");
    (St.Main, St.Divider);
    (St.Sidebar, St.Header "⚙️ Settings");
    (St.Sidebar, St.Write "Control the story's details here.");
    (St.Sidebar, St.SliderInt "Story Length");
    (St.Sidebar, St.SliderFloat "Creativity (Temperature)");
    (St.Sidebar, St.Divider);
    (St.Sidebar, St.Info "Made with ❤️ by PoulStar");
    (St.Column St.Sidebar 2, St.Image logo_url 250);
    (St.Column St.Main 1, St.Subheader "What is your story about?");
    (St.Column St.Main 1,
     St.TextArea
       "Write your story idea here. The AI will write a story for you.");
    (St.Column St.Main 1, St.Button "✨ Write My Story!") ].

(** The story section as lines 131-135 draw it for a session dict. *)
Definition story_area (ss : Py.dict) : list (St.Container * St.Element) :=
  match ss !! "story" with
  | Some text =>
      if Py.truthy text then
        [ (result_column, St.Subheader "Your New Story:");
          (St.Bordered result_column, St.Markdown text) ]
      else []
  | None => []
  end.

Definition empty_prompt_text : string :=
  "Please enter your story idea first!".

(** The text line 125 shows for an exception. *)
Definition failure_text (e : Py.Exception) : string :=
  "An error occurred: " +:+ Py.str e.

(** The text line 33 shows for an exception. *)
Definition startup_text (e : Py.Exception) : string :=
  "Error: Could not load the story engine. Please refresh. Details: "
  +:+ Py.str e.

(** The warnings, the errors and the story texts on a page. *)
Definition as_warning (x : St.Container * St.Element) : option string :=
  match x.2 with St.Warning t => Some t | _ => None end.

Definition as_error (x : St.Container * St.Element) : option string :=
  match x.2 with St.Error t => Some t | _ => None end.

Definition as_story (x : St.Container * St.Element) : option string :=
  match x.2 with St.Markdown t => Some t | _ => None end.

Definition warnings (s : St.State) : list string :=
  omap as_warning (St.page s).

Definition errors (s : St.State) : list string :=
  omap as_error (St.page s).

Definition stories (s : St.State) : list string :=
  omap as_story (St.page s).

(** The input controls on a page. *)
Definition inputs (s : St.State) : list St.Element :=
  filter (fun e => St.is_input e = true) (map snd (St.page s)).

(** The range a slider offers. *)
Definition in_range_int (w : St.Slider Z) (v : Z) : Prop :=
  St.min_value w <= v <= St.max_value w.

Definition in_range_float (w : St.Slider float) (v : float) : Prop :=
  PrimFloat.leb (St.min_value w) v = true /\
  PrimFloat.leb v (St.max_value w) = true.

(** A submission: a click on the button, with the model loaded. *)
Definition submitted (b : Browser) : Prop :=
  generate_clicked b = true.

(** The three ways the [try] block of lines 111-122 fails: the call raises,
    the returned list is empty, or its first dict has no text. *)
Definition try_block_fails (pipe : Pipeline) (b : Browser)
    (e : Py.Exception) : Prop :=
  pipe (request b) = inl e \/
  (pipe (request b) = inr [] /\ e = Py.IndexError) \/
  (exists d out, pipe (request b) = inr (d :: out) /\
                 d !! "generated_text" = None /\
                 e = Py.KeyError "generated_text").

(** ** A browser session *)

(** One execution: what loading the model gave, and what the browser sent. *)
Record Execution : Type := mkExecution {
  loaded : Py.Exception + Pipeline;
  sent : Browser
}.

(** The session dict an execution leaves behind. *)
Definition rerun (ss : Py.dict) (x : Execution) : Py.dict :=
  St.session_state (snd (run_script (loaded x) (sent x) ss)).

(** The session dict after a sequence of executions of a new session. *)
Definition session (xs : list Execution) : Py.dict :=
  foldl rerun ∅ xs.

(** An execution in which a submission gets [text] back from the pipeline. *)
Definition returns_text (x : Execution) (text : string) : Prop :=
  exists pipe d out,
    loaded x = inr pipe /\
    generate_clicked (sent x) = true /\
    Py.truthy (prompt_value (sent x)) = true /\
    pipe (request (sent x)) = inr (d :: out) /\
    d !! "generated_text" = Some text.

(** ** Stub pipelines *)

(** Returns one sequence: the prompt followed by a fixed ending. *)
Definition storyteller : Pipeline :=
  fun c => inr [ {[ "generated_text" := text_inputs c +:+ " The end." ]} ].

(** Returns one sequence with an empty text. *)
Definition silent : Pipeline :=
  fun c => inr [ {[ "generated_text" := "" ]} ].

(** Always raises. *)
Definition broken : Pipeline :=
  fun c => inl (Py.mkException "CUDA out of memory").

Definition robot : Browser :=
  mkBrowser None None (Some "A friendly robot that likes to garden.") true.

Definition robot_tuned : Browser :=
  mkBrowser (Some 200) (Some 1.2%float)
            (Some "A friendly robot that likes to garden.") true.

Definition robot_out_of_range : Browser :=
  mkBrowser (Some 500) (Some 2.0%float)
            (Some "A friendly robot that likes to garden.") true.

Definition no_prompt : Browser :=
  mkBrowser None None None true.

Definition spaces : Browser :=
  mkBrowser None None (Some "   ") true.

Definition idle : Browser :=
  mkBrowser (Some 100) None (Some "A sleepy cat") false.

Definition old_story : Py.dict :=
  {[ "story" := "Once upon a time there was a cat." ]}.

(** ** The properties as the specification words them *)

(** Blank prompts, empty or of whitespace only, are rejected with the
    warning and never reach the pipeline. *)
Definition blank_prompt_rejected : Prop :=
  forall pipe b ss,
    submitted b -> Py.blank (prompt_value b) = true ->
    let s := snd (run_script (inr pipe) b ss) in
    warnings s = [empty_prompt_text] /\ St.calls s = [].

(** A failing call stores its error message as the session result, over
    any earlier story, and the page shows the error and no story. *)
Definition failure_replaces_result : Prop :=
  forall pipe b ss e,
    submitted b -> Py.truthy (prompt_value b) = true ->
    pipe (request b) = inl e ->
    let s := snd (run_script (inr pipe) b ss) in
    St.session_state s !! "story" = Some (failure_text e) /\
    errors s = [failure_text e] /\ stories s = [].

(** A valid submission calls the pipeline once with the three values and
    the page shows the text of the first returned sequence. *)
Definition returned_text_displayed : Prop :=
  forall pipe b ss d out text,
    submitted b -> Py.truthy (prompt_value b) = true ->
    in_range_int story_length_slider (max_length_value b) ->
    in_range_float creativity_slider (creativity_value b) ->
    pipe (request b) = inr (d :: out) ->
    d !! "generated_text" = Some text ->
    let s := snd (run_script (inr pipe) b ss) in
    St.calls s = [request b] /\ stories s = [text].

(** ** Further observations *)

(** The containers of the result column: the column and its bordered box. *)
Definition in_result_column (x : St.Container * St.Element) : Prop :=
  x.1 = result_column \/ x.1 = St.Bordered result_column.

(** The story a session dict makes lines 131-135 show. *)
Definition shown_story (ss : Py.dict) : list string :=
  match ss !! "story" with
  | Some text => if Py.truthy text then [text] else []
  | None => []
  end.

(** The text line 122 stores in an execution, if the execution reaches it:
    the model is loaded, the button was clicked, the prompt is truthy, the
    call returns a non-empty list and its first dict has the text. *)
Definition returned (x : Execution) : option string :=
  match loaded x with
  | inl _ => None
  | inr pipe =>
      if generate_clicked (sent x) && Py.truthy (prompt_value (sent x)) then
        match pipe (request (sent x)) with
        | inr (d :: _) => d !! "generated_text"
        | _ => None
        end
      else None
  end.

(** The text stored by the last execution that stored one. *)
Definition latest (xs : list Execution) : option string :=
  foldl (fun acc x => match returned x with Some t => Some t | None => acc end)
        None xs.

(** Returns an empty list of sequences. *)
Definition mute : Pipeline :=
  fun c => inr [].

(** Returns one sequence, under another key. *)
Definition untitled : Pipeline :=
  fun c => inr [ {[ "summary_text" := "A robot gardens." ]} ].

(** * Proofs *)

(** ** One execution, case by case *)

(** Lines 131-135 append the story section of the session dict. *)
Lemma display_appends (ss : Py.dict) pg cs :
  display (St.mkState ss pg cs result_column) =
  (St.Ok tt, St.mkState ss (pg ++ story_area ss) cs result_column).
Proof.
  unfold display, story_area, St.session_lookup, mbind, St.script_bind.
  cbn [St.session_state].
  destruct (ss !! "story") as [text|].
  - destruct text as [|c text]; cbn.
    + by rewrite app_nil_r.
    + by rewrite <- app_assoc.
  - cbn. by rewrite app_nil_r.
Qed.

(** The story section holds no warning and no error, and the story only
    when one is stored and is not empty. *)
Lemma story_area_warnings (ss : Py.dict) : omap as_warning (story_area ss) = [].
Proof.
  unfold story_area. destruct (ss !! "story") as [[|c text]|]; reflexivity.
Qed.

Lemma story_area_errors (ss : Py.dict) : omap as_error (story_area ss) = [].
Proof.
  unfold story_area. destruct (ss !! "story") as [[|c text]|]; reflexivity.
Qed.

Lemma story_area_stories (ss : Py.dict) :
  omap as_story (story_area ss) =
  match ss !! "story" with
  | Some text => if Py.truthy text then [text] else []
  | None => []
  end.
Proof.
  unfold story_area. destruct (ss !! "story") as [[|c text]|]; reflexivity.
Qed.

Section Runs.

Variable pipe : Pipeline.
Variable b : Browser.
Variable ss : Py.dict.

(** Up to the result column the script is straight-line code. *)
Lemma run_script_loaded :
  run_script (inr pipe) b ss =
  St.within result_column
    (generate pipe (prompt_value b) (max_length_value b)
       (creativity_value b) (generate_clicked b) ;;
     display)
    (St.mkState ss controls [] St.Main).
Proof. reflexivity. Qed.

(** The result column: whatever lines 107-128 leave, then the story. *)
Lemma run_script_result ss' pg cs :
  generate pipe (prompt_value b) (max_length_value b) (creativity_value b)
    (generate_clicked b) (St.mkState ss controls [] result_column) =
  (St.Ok tt, St.mkState ss' pg cs result_column) ->
  run_script (inr pipe) b ss =
  (St.Ok tt, St.mkState ss' (pg ++ story_area ss') cs St.Main).
Proof.
  intros Hgen. rewrite run_script_loaded.
  unfold St.within, mbind, St.script_bind.
  cbn [St.session_state St.page St.calls St.current].
  rewrite Hgen, display_appends. reflexivity.
Qed.

(** No click: lines 108-128 are skipped. *)
Lemma run_idle :
  generate_clicked b = false ->
  run_script (inr pipe) b ss =
  (St.Ok tt, St.mkState ss (controls ++ story_area ss) [] St.Main).
Proof.
  intros Hclick. apply run_script_result.
  unfold generate. rewrite Hclick. reflexivity.
Qed.

(** A click with a falsy prompt: line 128. *)
Lemma run_no_prompt :
  generate_clicked b = true -> Py.truthy (prompt_value b) = false ->
  run_script (inr pipe) b ss =
  (St.Ok tt,
   St.mkState ss
     (controls ++ [(result_column, St.Warning empty_prompt_text)]
      ++ story_area ss) [] St.Main).
Proof.
  intros Hclick Hprompt. rewrite app_assoc. apply run_script_result.
  unfold generate. rewrite Hclick, Hprompt. reflexivity.
Qed.

(** What line 125 shows when the [try] block fails. *)
Lemma run_failed e :
  generate_clicked b = true -> Py.truthy (prompt_value b) = true ->
  try_block_fails pipe b e ->
  run_script (inr pipe) b ss =
  (St.Ok tt,
   St.mkState ss
     (controls ++ [(result_column, St.Error (failure_text e))]
      ++ story_area ss) [request b] St.Main).
Proof.
  intros Hclick Hprompt Hfail. rewrite app_assoc. apply run_script_result.
  unfold generate. rewrite Hclick, Hprompt.
  unfold St.spinner, St.try_except, mbind, St.script_bind, St.call.
  fold (request b).
  destruct Hfail as [Hp | [[Hp ->] | (d & out & Hp & Hd & ->)]];
    rewrite Hp; cbn; [reflexivity .. |].
  unfold St.getitem. rewrite Hd. reflexivity.
Qed.

(** The [try] block runs through: line 122 stores the text. *)
Lemma run_returned d out text :
  generate_clicked b = true -> Py.truthy (prompt_value b) = true ->
  pipe (request b) = inr (d :: out) ->
  d !! "generated_text" = Some text ->
  run_script (inr pipe) b ss =
  (St.Ok tt,
   St.mkState (<["story" := text]> ss)
     (controls ++ story_area (<["story" := text]> ss)) [request b] St.Main).
Proof.
  intros Hclick Hprompt Hp Hd. apply run_script_result.
  unfold generate. rewrite Hclick, Hprompt.
  unfold St.spinner, St.try_except, mbind, St.script_bind, St.call.
  fold (request b). rewrite Hp. cbn.
  unfold St.getitem. rewrite Hd. reflexivity.
Qed.

End Runs.

(** Lines 29-34: the model does not load. *)
Lemma run_load_failed e b ss :
  run_script (inl e) b ss =
  (St.Stopped, St.mkState ss [(St.Main, St.Error (startup_text e))] []
                          St.Main).
Proof. reflexivity. Qed.

(** An execution calls the pipeline at most once, and then with what the
    widgets returned. *)
Lemma run_calls load b ss :
  St.calls (snd (run_script load b ss)) = [] \/
  St.calls (snd (run_script load b ss)) = [request b].
Proof.
  destruct load as [e | pipe]; [left; reflexivity |].
  destruct (generate_clicked b) eqn:Hclick;
    [| left; by rewrite run_idle].
  destruct (Py.truthy (prompt_value b)) eqn:Hprompt;
    [| left; by rewrite run_no_prompt].
  right. destruct (pipe (request b)) as [e | [| d out]] eqn:Hp.
  - rewrite (run_failed _ _ _ e); [reflexivity | done | done | by left].
  - rewrite (run_failed _ _ _ Py.IndexError);
      [reflexivity | done | done | right; left; done].
  - destruct (d !! "generated_text") as [text |] eqn:Hd.
    + by rewrite (run_returned _ _ _ d out text).
    + rewrite (run_failed _ _ _ (Py.KeyError "generated_text"));
        [reflexivity | done | done |].
      right; right. by exists d, out.
Qed.

(** A click with a truthy prompt makes the one call, whatever it does. *)
Lemma run_calls_submitted pipe b ss :
  generate_clicked b = true -> Py.truthy (prompt_value b) = true ->
  St.calls (snd (run_script (inr pipe) b ss)) = [request b].
Proof.
  intros Hclick Hprompt.
  destruct (pipe (request b)) as [e | [| d out]] eqn:Hp.
  - by rewrite (run_failed _ _ _ e); [| | | left].
  - by rewrite (run_failed _ _ _ Py.IndexError); [| | | right; left].
  - destruct (d !! "generated_text") as [text |] eqn:Hd.
    + by rewrite (run_returned _ _ _ d out text).
    + rewrite (run_failed _ _ _ (Py.KeyError "generated_text"));
        [done | done | done |].
      right; right. by exists d, out.
Qed.

(** An execution leaves the session dict alone or sets its story. *)
Lemma run_session_state load b ss :
  St.session_state (snd (run_script load b ss)) = ss \/
  exists text,
    St.session_state (snd (run_script load b ss)) = <["story" := text]> ss.
Proof.
  destruct load as [e | pipe]; [left; reflexivity |].
  destruct (generate_clicked b) eqn:Hclick;
    [| left; by rewrite run_idle].
  destruct (Py.truthy (prompt_value b)) eqn:Hprompt;
    [| left; by rewrite run_no_prompt].
  destruct (pipe (request b)) as [e | [| d out]] eqn:Hp.
  - left. rewrite (run_failed _ _ _ e); [reflexivity | done | done | by left].
  - left. rewrite (run_failed _ _ _ Py.IndexError);
      [reflexivity | done | done | right; left; done].
  - destruct (d !! "generated_text") as [text |] eqn:Hd.
    + right. exists text. by rewrite (run_returned _ _ _ d out text).
    + left. rewrite (run_failed _ _ _ (Py.KeyError "generated_text"));
        [reflexivity | done | done |].
      right; right. by exists d, out.
Qed.

(** No execution ends in an exception that nothing has caught. *)
Lemma run_never_raises load b ss e :
  fst (run_script load b ss) <> St.Raised e.
Proof.
  destruct load as [e0 | pipe]; [by rewrite run_load_failed |].
  destruct (generate_clicked b) eqn:Hclick; [| by rewrite run_idle].
  destruct (Py.truthy (prompt_value b)) eqn:Hprompt;
    [| by rewrite run_no_prompt].
  destruct (pipe (request b)) as [e1 | [| d out]] eqn:Hp.
  - by rewrite (run_failed _ _ _ e1); [| | | left].
  - by rewrite (run_failed _ _ _ Py.IndexError); [| | | right; left].
  - destruct (d !! "generated_text") as [text |] eqn:Hd.
    + by rewrite (run_returned _ _ _ d out text).
    + rewrite (run_failed _ _ _ (Py.KeyError "generated_text"));
        [done | done | done |].
      right; right. by exists d, out.
Qed.

(** ** Prompt validation *)

(** C1, as the specification words it, fails: a prompt of three spaces is
    not empty, so line 108 lets it through and the pipeline is called. *)
Lemma whitespace_prompt_generates : ~ blank_prompt_rejected.
Proof.
  intros H.
  destruct (H storyteller spaces ∅ eq_refl eq_refl) as [_ Hcalls].
  vm_compute in Hcalls. discriminate.
Qed.

(** C1, amended: for every submission whose prompt is empty, the page shows
    the warning "Please enter your story idea first!" and the pipeline is
    not called. *)
Theorem empty_prompt_rejected pipe b ss :
  submitted b -> prompt_value b = "" ->
  let s := snd (run_script (inr pipe) b ss) in
  warnings s = [empty_prompt_text] /\ St.calls s = [].
Proof.
  intros Hclick Hprompt s. subst s.
  rewrite run_no_prompt by (by rewrite ?Hprompt).
  split; [| reflexivity].
  unfold warnings. cbn [snd St.page].
  rewrite !omap_app, story_area_warnings. reflexivity.
Qed.

Lemma empty_prompt_rejected_witness :
  submitted no_prompt /\ prompt_value no_prompt = "" /\
  warnings (snd (run_script (inr storyteller) no_prompt old_story))
  = [empty_prompt_text] /\
  St.calls (snd (run_script (inr storyteller) no_prompt old_story)) = [].
Proof.
  split; [reflexivity |]. split; [reflexivity |].
  apply (empty_prompt_rejected storyteller no_prompt old_story); reflexivity.
Defined.

(** C5: a submission with an empty prompt leaves the session dict as it
    was; the pipeline is not called, the warning is the only message, and
    the story section is the one the unchanged dict gives. *)
Theorem empty_prompt_keeps_result pipe b ss :
  submitted b -> prompt_value b = "" ->
  let s := snd (run_script (inr pipe) b ss) in
  St.session_state s = ss /\ St.calls s = [] /\
  warnings s = [empty_prompt_text] /\ errors s = [] /\
  St.page s =
    (controls ++ [(result_column, St.Warning empty_prompt_text)]
     ++ story_area ss)%list.
Proof.
  intros Hclick Hprompt s. subst s.
  rewrite run_no_prompt by (by rewrite ?Hprompt).
  repeat split.
  - unfold warnings. cbn [snd St.page].
    rewrite !omap_app, story_area_warnings. reflexivity.
  - unfold errors. cbn [snd St.page].
    rewrite !omap_app, story_area_errors. reflexivity.
Qed.

Lemma empty_prompt_keeps_result_witness :
  St.session_state (snd (run_script (inr broken) no_prompt old_story))
  = old_story /\
  stories (snd (run_script (inr broken) no_prompt old_story))
  = ["Once upon a time there was a cat."].
Proof.
  destruct (empty_prompt_keeps_result broken no_prompt old_story)
    as (Hss & _ & _ & _ & Hpage); [reflexivity | reflexivity |].
  split; [exact Hss |].
  unfold stories. rewrite Hpage. reflexivity.
Defined.

(** ** Failing calls *)

(** C2, as the specification words it, fails: when the call raises over a
    stored story, the dict still holds the story, not the error message. *)
Lemma failure_keeps_old_story : ~ failure_replaces_result.
Proof.
  intros H.
  destruct (H broken robot old_story (Py.mkException "CUDA out of memory")
              eq_refl eq_refl eq_refl) as [Hstored _].
  vm_compute in Hstored. discriminate.
Qed.

(** C2, amended: for every submission on which the pipeline call raises,
    the page shows "An error occurred: " followed by the error message, as
    an error element; the session dict is left as it was, so that a story
    stored earlier is kept and is still drawn below the error. *)
Theorem failure_shown_result_kept pipe b ss e :
  submitted b -> Py.truthy (prompt_value b) = true ->
  pipe (request b) = inl e ->
  let s := snd (run_script (inr pipe) b ss) in
  errors s = [failure_text e] /\
  St.session_state s = ss /\
  St.page s =
    (controls ++ [(result_column, St.Error (failure_text e))]
     ++ story_area ss)%list.
Proof.
  intros Hclick Hprompt Hp s. subst s.
  rewrite (run_failed _ _ _ e) by (done || by left).
  repeat split.
  unfold errors. cbn [snd St.page].
  rewrite !omap_app, story_area_errors. reflexivity.
Qed.

Lemma failure_shown_result_kept_witness :
  errors (snd (run_script (inr broken) robot old_story))
  = ["An error occurred: CUDA out of memory"] /\
  St.session_state (snd (run_script (inr broken) robot old_story))
  = old_story.
Proof.
  destruct (failure_shown_result_kept broken robot old_story
              (Py.mkException "CUDA out of memory"))
    as (Herr & Hss & _); [reflexivity | reflexivity | reflexivity |].
  split; [exact Herr | exact Hss].
Defined.

(** ** Successful calls *)

(** C3, as the specification words it, fails: when the first sequence's
    text is the empty string, line 131 finds it falsy and draws no story. *)
Lemma empty_text_not_displayed : ~ returned_text_displayed.
Proof.
  intros H.
  destruct (H silent robot ∅ {[ "generated_text" := "" ]} [] "")
    as [_ Hshown]; try reflexivity.
  - unfold in_range_int. cbn. lia.
  - split; reflexivity.
  - vm_compute in Hshown. discriminate.
Qed.

(** C3, amended: for every submission with a non-empty prompt and in-range
    max_length and temperature, the pipeline is called exactly once, with
    the prompt and those two values, whatever the call then does; when it
    returns, the text of the first returned sequence is stored as the
    session result and, when it is not empty, it is the one story text on
    the page. *)
Theorem returned_text_stored_and_displayed pipe b ss :
  submitted b -> Py.truthy (prompt_value b) = true ->
  in_range_int story_length_slider (max_length_value b) ->
  in_range_float creativity_slider (creativity_value b) ->
  let s := snd (run_script (inr pipe) b ss) in
  St.calls s =
    [mkCall (prompt_value b) (max_length_value b) 1 (creativity_value b)
            true] /\
  forall d out text,
    pipe (request b) = inr (d :: out) ->
    d !! "generated_text" = Some text ->
    St.session_state s !! "story" = Some text /\
    (text <> "" -> stories s = [text] /\ errors s = []).
Proof.
  intros Hclick Hprompt _ _ s. subst s.
  split; [by apply run_calls_submitted |].
  intros d out text Hp Hd.
  rewrite (run_returned _ _ _ d out text) by done.
  cbn [snd St.session_state St.page].
  split; [apply lookup_insert_eq |].
  intros Htext. unfold stories, errors. cbn [snd St.page].
  rewrite !omap_app, story_area_stories, story_area_errors.
  rewrite lookup_insert_eq.
  destruct text; [done | split; reflexivity].
Qed.

Lemma returned_text_stored_and_displayed_witness :
  St.calls (snd (run_script (inr broken) robot old_story))
  = [mkCall "A friendly robot that likes to garden." 150 1 0.9%float true] /\
  St.calls (snd (run_script (inr storyteller) robot old_story))
  = [mkCall "A friendly robot that likes to garden." 150 1 0.9%float true] /\
  stories (snd (run_script (inr storyteller) robot old_story))
  = ["A friendly robot that likes to garden. The end."].
Proof.
  assert (in_range_int story_length_slider (max_length_value robot))
    as Hlen by (unfold in_range_int; cbn; lia).
  assert (in_range_float creativity_slider (creativity_value robot))
    as Htemp by (split; reflexivity).
  split.
  { apply (returned_text_stored_and_displayed broken robot old_story
             eq_refl eq_refl Hlen Htemp). }
  destruct (returned_text_stored_and_displayed storyteller robot old_story
              eq_refl eq_refl Hlen Htemp) as [Hcalls Hreturned].
  split; [exact Hcalls |].
  destruct (Hreturned
              {[ "generated_text" :=
                   "A friendly robot that likes to garden. The end." ]} []
              "A friendly robot that likes to garden. The end."
              eq_refl eq_refl) as [_ Hshown].
  apply Hshown. discriminate.
Defined.

(** C10: when the first returned sequence's text is the empty string, the
    empty string replaces the stored result and the result column stays
    empty: no heading, no story, no error and no warning, whatever story
    was stored and shown before. *)
Theorem empty_text_hides_story pipe b ss d out :
  submitted b -> Py.truthy (prompt_value b) = true ->
  pipe (request b) = inr (d :: out) ->
  d !! "generated_text" = Some "" ->
  let s := snd (run_script (inr pipe) b ss) in
  St.session_state s = <["story" := ""]> ss /\
  St.page s = controls /\
  stories s = [] /\ errors s = [] /\ warnings s = [].
Proof.
  intros Hclick Hprompt Hp Hd s. subst s.
  rewrite (run_returned _ _ _ d out "") by done.
  cbn [snd St.session_state St.page].
  assert (story_area (<["story" := ""]> ss) = []) as Harea.
  { unfold story_area. by rewrite lookup_insert_eq. }
  unfold stories, errors, warnings. cbn [snd St.page].
  rewrite Harea, app_nil_r. repeat split.
Qed.

Lemma empty_text_hides_story_witness :
  stories (snd (run_script (inr storyteller) idle old_story))
  = ["Once upon a time there was a cat."] /\
  St.session_state (snd (run_script (inr silent) robot old_story))
  = {[ "story" := "" ]} /\
  St.page (snd (run_script (inr silent) robot old_story)) = controls.
Proof.
  split; [reflexivity |].
  destruct (empty_text_hides_story silent robot old_story
              {[ "generated_text" := "" ]} [])
    as (Hss & Hpage & _); try reflexivity.
  split; [| exact Hpage].
  etrans; [exact Hss | apply insert_singleton_eq].
Defined.

(** ** The arguments of a call *)

(** What the two sliders hand to the script lies in their ranges: a sent
    position is handed on only when the slider offers it, and the initial
    values 150 and 0.9 are offered. *)
Lemma max_length_in_range b :
  in_range_int story_length_slider (max_length_value b).
Proof.
  unfold in_range_int, max_length_value, St.handed_int.
  destruct (story_length_ui b) as [v |]; [| cbn; lia].
  destruct (St.offered_int story_length_slider v) eqn:Hoffered; [| cbn; lia].
  unfold St.offered_int in Hoffered.
  apply andb_true_iff in Hoffered as [Hmin Hmax].
  apply Z.leb_le in Hmin, Hmax. done.
Qed.

Lemma creativity_in_range b :
  in_range_float creativity_slider (creativity_value b).
Proof.
  unfold in_range_float, creativity_value, St.handed_float.
  destruct (creativity_ui b) as [v |]; [| split; reflexivity].
  destruct (St.offered_float creativity_slider v) eqn:Hoffered;
    [| split; reflexivity].
  unfold St.offered_float in Hoffered.
  by apply andb_true_iff in Hoffered.
Qed.

(** C4: in every execution, whatever the browser sent for the sliders,
    what the pipeline is called with has max_length in [50, 300] and
    temperature in [0.5, 1.5]: the arguments are what the two sliders hand
    out, and a slider hands out no value outside its range. *)
Theorem call_arguments_in_range load b ss :
  Forall (fun c =>
            50 <= max_length c <= 300 /\
            PrimFloat.leb 0.5 (temperature c) = true /\
            PrimFloat.leb (temperature c) 1.5 = true)
         (St.calls (snd (run_script load b ss))).
Proof.
  destruct (run_calls load b ss) as [-> | ->]; [constructor |].
  constructor; [| constructor].
  cbn [request max_length temperature].
  split; [exact (max_length_in_range b) | exact (creativity_in_range b)].
Qed.

(** A position within the range is handed on; positions outside it, here
    500 and 2.0, are replaced by the initial values. *)
Example tuned_positions_handed_on :
  St.calls (snd (run_script (inr storyteller) robot_tuned ∅))
  = [mkCall "A friendly robot that likes to garden." 200 1 1.2%float true].
Proof. reflexivity. Qed.

Example out_of_range_positions_replaced :
  St.calls (snd (run_script (inr storyteller) robot_out_of_range ∅))
  = [mkCall "A friendly robot that likes to garden." 150 1 0.9%float true].
Proof. reflexivity. Qed.

(** ** Errors stay inside the script *)

(** C6: an error raised by the pipeline call is caught on line 124: the
    execution ends normally, the page shows the error text and the input
    controls, and a submission made afterwards calls the pipeline again and
    gets its text stored. *)
Theorem pipeline_error_contained pipe b ss e :
  submitted b -> Py.truthy (prompt_value b) = true ->
  pipe (request b) = inl e ->
  let r := run_script (inr pipe) b ss in
  fst r = St.Ok tt /\
  (result_column, St.Error (failure_text e)) ∈ St.page (snd r) /\
  inputs (snd r) =
    [ St.SliderInt "Story Length";
      St.SliderFloat "Creativity (Temperature)";
      St.TextArea
        "Write your story idea here. The AI will write a story for you.";
      St.Button "✨ Write My Story!" ] /\
  forall pipe' b' d out text,
    submitted b' -> Py.truthy (prompt_value b') = true ->
    pipe' (request b') = inr (d :: out) ->
    d !! "generated_text" = Some text ->
    let r' := run_script (inr pipe') b' (St.session_state (snd r)) in
    fst r' = St.Ok tt /\ St.calls (snd r') = [request b'] /\
    St.session_state (snd r') !! "story" = Some text.
Proof.
  intros Hclick Hprompt Hp r. subst r.
  rewrite (run_failed _ _ _ e) by (done || by left).
  cbn [fst snd St.page St.session_state].
  split; [reflexivity |]. split.
  { apply elem_of_app. right. apply elem_of_app. left.
    by apply list_elem_of_singleton. }
  split.
  { unfold inputs. cbn [snd St.page]. rewrite !map_app, !filter_app.
    assert (filter (fun x => St.is_input x = true) (map snd (story_area ss))
            = []) as ->.
    { unfold story_area.
      destruct (ss !! "story") as [[|c text]|]; reflexivity. }
    reflexivity. }
  intros pipe' b' d out text Hclick' Hprompt' Hp' Hd.
  rewrite (run_returned _ _ _ d out text) by done.
  cbn [fst snd St.calls St.session_state].
  repeat split. apply lookup_insert_eq.
Qed.

Lemma pipeline_error_contained_witness :
  fst (run_script (inr broken) robot old_story) = St.Ok tt /\
  St.session_state
    (snd (run_script (inr storyteller) robot
            (St.session_state (snd (run_script (inr broken) robot old_story)))))
  !! "story" = Some "A friendly robot that likes to garden. The end.".
Proof.
  destruct (pipeline_error_contained broken robot old_story
              (Py.mkException "CUDA out of memory"))
    as (Hok & _ & _ & Hnext); [reflexivity | reflexivity | reflexivity |].
  split; [exact Hok |].
  destruct (Hnext storyteller robot
              {[ "generated_text" :=
                   "A friendly robot that likes to garden. The end." ]} []
              "A friendly robot that likes to garden. The end.")
    as (_ & _ & Hstored); [reflexivity | reflexivity | reflexivity
                          | reflexivity |].
  exact Hstored.
Defined.

(** C7: when the model does not load, the execution shows the start-up
    error and stops there: no slider, text area or button is drawn, no
    story is shown and the pipeline is not called. *)
Theorem startup_failure_offers_nothing e b ss :
  let r := run_script (inl e) b ss in
  fst r = St.Stopped /\
  St.page (snd r) = [(St.Main, St.Error (startup_text e))] /\
  inputs (snd r) = [] /\ stories (snd r) = [] /\
  St.calls (snd r) = [] /\ St.session_state (snd r) = ss.
Proof.
  intros r. subst r. rewrite run_load_failed. repeat split.
Qed.

(** ** Generation only on request *)

(** C9: an execution that was not triggered by a click on the button makes
    no call of the pipeline, and leaves the session dict as it was. *)
Theorem no_click_no_generation load b ss :
  generate_clicked b = false ->
  St.calls (snd (run_script load b ss)) = [] /\
  St.session_state (snd (run_script load b ss)) = ss.
Proof.
  intros Hclick. destruct load as [e | pipe].
  - by rewrite run_load_failed.
  - by rewrite run_idle.
Qed.

Lemma no_click_no_generation_witness :
  generate_clicked idle = false /\
  St.calls (snd (run_script (inr storyteller) idle old_story)) = [] /\
  St.session_state (snd (run_script (inr storyteller) idle old_story))
  = old_story.
Proof.
  split; [reflexivity |].
  apply (no_click_no_generation (inr storyteller) idle old_story).
  reflexivity.
Defined.

(** ** The session keeps one result *)

(** An execution keeps the session dict empty or holding the story alone. *)
Lemma rerun_single ss x :
  ss = ∅ \/ (exists text, ss = {[ "story" := text ]}) ->
  rerun ss x = ∅ \/ exists text, rerun ss x = {[ "story" := text ]}.
Proof.
  intros Hss. unfold rerun.
  destruct (run_session_state (loaded x) (sent x) ss)
    as [Heq | [text Heq]]; rewrite Heq; [exact Hss |].
  right. exists text. destruct Hss as [-> | [old ->]].
  - apply insert_empty.
  - apply insert_singleton_eq.
Qed.

Lemma session_single xs :
  session xs = ∅ \/ exists text, session xs = {[ "story" := text ]}.
Proof.
  unfold session. induction xs as [| x xs IH] using rev_ind; [by left |].
  rewrite foldl_snoc. by apply rerun_single.
Qed.

(** C8: at any point of a session the session dict holds at most one
    result, under the key "story"; an execution whose submission gets a
    text back leaves that text as the only entry, whatever was stored
    before. *)
Theorem session_keeps_latest_only xs :
  (session xs = ∅ \/ exists text, session xs = {[ "story" := text ]}) /\
  (size (session xs) <= 1)%nat /\
  forall x text,
    returns_text x text -> session (xs ++ [x]) = {[ "story" := text ]}.
Proof.
  split; [apply session_single |]. split.
  { destruct (session_single xs) as [-> | [text ->]].
    - rewrite map_size_empty. lia.
    - rewrite map_size_singleton. lia. }
  intros x text (pipe & d & out & Hload & Hclick & Hprompt & Hp & Hd).
  unfold session. rewrite foldl_snoc. fold (session xs).
  unfold rerun. rewrite Hload.
  rewrite (run_returned _ _ _ d out text) by done.
  cbn [snd St.session_state].
  destruct (session_single xs) as [-> | [old ->]].
  - apply insert_empty.
  - apply insert_singleton_eq.
Qed.

Lemma session_keeps_latest_only_witness :
  session [mkExecution (inr storyteller) robot;
           mkExecution (inr storyteller)
             (mkBrowser None None (Some "A sleepy cat") true)]
  = {[ "story" := "A sleepy cat The end." ]}.
Proof.
  apply (proj2 (proj2 (session_keeps_latest_only
                         [mkExecution (inr storyteller) robot]))
           (mkExecution (inr storyteller)
              (mkBrowser None None (Some "A sleepy cat") true))
           "A sleepy cat The end.").
  exists storyteller, {[ "generated_text" := "A sleepy cat The end." ]}, [].
  repeat split.
Defined.

(** ** Malformed answers of the pipeline *)

(** X1: when the call returns an empty list, [[0]] on line 119 raises
    IndexError inside the [try] block: the page shows "An error occurred:
    list index out of range", nothing is stored, and the execution ends
    normally after the one call. *)
Theorem empty_answer_reported pipe b ss :
  submitted b -> Py.truthy (prompt_value b) = true ->
  pipe (request b) = inr [] ->
  let r := run_script (inr pipe) b ss in
  fst r = St.Ok tt /\
  errors (snd r) = ["An error occurred: list index out of range"] /\
  St.session_state (snd r) = ss /\
  St.calls (snd r) = [request b] /\
  stories (snd r) = shown_story ss.
Proof.
  intros Hclick Hprompt Hp r. subst r.
  rewrite (run_failed _ _ _ Py.IndexError) by (done || (right; left; done)).
  cbn [fst snd St.session_state St.calls].
  unfold errors, stories. cbn [snd St.page].
  rewrite !omap_app, story_area_errors, story_area_stories.
  repeat split.
Qed.

Lemma empty_answer_reported_witness :
  errors (snd (run_script (inr mute) robot old_story))
  = ["An error occurred: list index out of range"] /\
  stories (snd (run_script (inr mute) robot old_story))
  = ["Once upon a time there was a cat."].
Proof.
  destruct (empty_answer_reported mute robot old_story)
    as (_ & Herr & _ & _ & Hshown); [reflexivity | reflexivity | reflexivity |].
  split; [exact Herr | exact Hshown].
Defined.

(** X2: when the first returned dict has no "generated_text", the
    subscript on line 119 raises KeyError inside the [try] block: the page
    shows "An error occurred: 'generated_text'", nothing is stored, and the
    execution ends normally after the one call. *)
Theorem missing_text_reported pipe b ss d out :
  submitted b -> Py.truthy (prompt_value b) = true ->
  pipe (request b) = inr (d :: out) ->
  d !! "generated_text" = None ->
  let r := run_script (inr pipe) b ss in
  fst r = St.Ok tt /\
  errors (snd r) = ["An error occurred: 'generated_text'"] /\
  St.session_state (snd r) = ss /\
  St.calls (snd r) = [request b] /\
  stories (snd r) = shown_story ss.
Proof.
  intros Hclick Hprompt Hp Hd r. subst r.
  rewrite (run_failed _ _ _ (Py.KeyError "generated_text"));
    [| done | done | right; right; by exists d, out].
  cbn [fst snd St.session_state St.calls].
  unfold errors, stories. cbn [snd St.page].
  rewrite !omap_app, story_area_errors, story_area_stories.
  repeat split.
Qed.

Lemma missing_text_reported_witness :
  errors (snd (run_script (inr untitled) robot ∅))
  = ["An error occurred: 'generated_text'"] /\
  St.session_state (snd (run_script (inr untitled) robot ∅)) = ∅.
Proof.
  destruct (missing_text_reported untitled robot ∅
              {[ "summary_text" := "A robot gardens." ]} [])
    as (_ & Herr & Hss & _);
    [reflexivity | reflexivity | reflexivity | reflexivity |].
  split; [exact Herr | exact Hss].
Defined.

(** ** When the pipeline is called, and with what *)

(** X3: an execution calls the pipeline exactly when the model is loaded,
    the button was clicked and the prompt is not empty, and then once,
    whatever the call does; otherwise it makes no call. *)
Theorem call_made_exactly_when load b ss :
  St.calls (snd (run_script load b ss)) =
  match load with
  | inl _ => []
  | inr _ =>
      if generate_clicked b && Py.truthy (prompt_value b)
      then [request b] else []
  end.
Proof.
  destruct load as [e | pipe]; [reflexivity |].
  destruct (generate_clicked b) eqn:Hclick; [| by rewrite run_idle].
  destruct (Py.truthy (prompt_value b)) eqn:Hprompt;
    [| by rewrite run_no_prompt].
  cbn [andb].
  destruct (pipe (request b)) as [e | [| d out]] eqn:Hp.
  - by rewrite (run_failed _ _ _ e); [| | | left].
  - by rewrite (run_failed _ _ _ Py.IndexError); [| | | right; left].
  - destruct (d !! "generated_text") as [text |] eqn:Hd.
    + by rewrite (run_returned _ _ _ d out text).
    + rewrite (run_failed _ _ _ (Py.KeyError "generated_text"));
        [done | done | done |].
      right; right. by exists d, out.
Qed.

(** X4: every call an execution makes carries the text of the text area
    unchanged, and that text is not empty; it asks for one sequence, with
    sampling on. *)
Theorem calls_carry_prompt load b ss :
  Forall (fun c =>
            text_inputs c = prompt_value b /\ text_inputs c <> "" /\
            num_return_sequences c = 1 /\ do_sample c = true)
         (St.calls (snd (run_script load b ss))).
Proof.
  destruct load as [e | pipe]; [constructor |].
  destruct (generate_clicked b) eqn:Hclick;
    [| rewrite run_idle by done; constructor].
  destruct (Py.truthy (prompt_value b)) eqn:Hprompt;
    [| rewrite run_no_prompt by done; constructor].
  destruct (run_calls (inr pipe) b ss) as [-> | ->]; [constructor |].
  repeat constructor. cbn [request text_inputs].
  intros Hempty. by rewrite Hempty in Hprompt.
Qed.

(** ** How an execution ends *)

(** X5: whatever the browser sent, and whether the call returns a text,
    returns no sequence, returns a dict without the text or raises an
    instance of [Exception], an execution with the model loaded runs to its
    end; it is stopped exactly when the model did not load.  No instance of
    [Exception] raised inside the two [try] blocks leaves the script. *)
Theorem execution_outcome load b ss :
  fst (run_script load b ss) =
  match load with
  | inl _ => St.Stopped
  | inr _ => St.Ok tt
  end.
Proof.
  destruct load as [e | pipe]; [reflexivity |].
  destruct (generate_clicked b) eqn:Hclick; [| by rewrite run_idle].
  destruct (Py.truthy (prompt_value b)) eqn:Hprompt;
    [| by rewrite run_no_prompt].
  destruct (pipe (request b)) as [e | [| d out]] eqn:Hp.
  - by rewrite (run_failed _ _ _ e); [| | | left].
  - by rewrite (run_failed _ _ _ Py.IndexError); [| | | right; left].
  - destruct (d !! "generated_text") as [text |] eqn:Hd.
    + by rewrite (run_returned _ _ _ d out text).
    + rewrite (run_failed _ _ _ (Py.KeyError "generated_text"));
        [done | done | done |].
      right; right. by exists d, out.
Qed.

(** ** The page of an execution *)

(** With the model loaded the page is the controls, at most one message,
    and the story section of the session dict the execution leaves. *)
Lemma run_shape pipe b ss :
  exists ss' msg cs,
    run_script (inr pipe) b ss =
    (St.Ok tt,
     St.mkState ss' (controls ++ msg ++ story_area ss') cs St.Main) /\
    (msg = [] \/
     msg = [(result_column, St.Warning empty_prompt_text)] \/
     exists e, msg = [(result_column, St.Error (failure_text e))]).
Proof.
  destruct (generate_clicked b) eqn:Hclick.
  2:{ exists ss, [], []. rewrite run_idle by done. split; [done | by left]. }
  destruct (Py.truthy (prompt_value b)) eqn:Hprompt.
  2:{ exists ss, [(result_column, St.Warning empty_prompt_text)], [].
      rewrite run_no_prompt by done. split; [done | right; by left]. }
  assert (forall e, try_block_fails pipe b e ->
            exists ss' msg cs,
              run_script (inr pipe) b ss =
              (St.Ok tt,
               St.mkState ss' (controls ++ msg ++ story_area ss') cs St.Main)
              /\ (msg = [] \/
                  msg = [(result_column, St.Warning empty_prompt_text)] \/
                  exists e, msg = [(result_column, St.Error (failure_text e))]))
    as Hfailed.
  { intros e He.
    exists ss, [(result_column, St.Error (failure_text e))], [request b].
    rewrite (run_failed _ _ _ e) by done.
    split; [done | right; right; by exists e]. }
  destruct (pipe (request b)) as [e | [| d out]] eqn:Hp.
  - apply (Hfailed e). by left.
  - apply (Hfailed Py.IndexError). right. by left.
  - destruct (d !! "generated_text") as [text |] eqn:Hd.
    + exists (<["story" := text]> ss), [], [request b].
      rewrite (run_returned _ _ _ d out text) by done.
      split; [done | by left].
    + apply (Hfailed (Py.KeyError "generated_text")).
      right; right. by exists d, out.
Qed.

(** X6: after every execution with the model loaded, the story on the page
    is the one the session dict holds at the end of that execution: the
    stored text when it is not empty, and no story otherwise. *)
Theorem page_shows_stored_story pipe b ss :
  let s := snd (run_script (inr pipe) b ss) in
  stories s = shown_story (St.session_state s).
Proof.
  intros s. subst s.
  destruct (run_shape pipe b ss) as (ss' & msg & cs & -> & Hmsg).
  unfold stories. cbn [snd St.page St.session_state].
  rewrite !omap_app, story_area_stories.
  destruct Hmsg as [-> | [-> | [e ->]]]; reflexivity.
Qed.

(** X7: with the model loaded, every page starts with the same twelve
    elements, among them the two sliders, the text area and the button,
    whatever the browser sent and whatever the call did; everything after
    them is drawn in the result column. *)
Theorem controls_always_offered pipe b ss :
  let s := snd (run_script (inr pipe) b ss) in
  exists rest,
    St.page s = (controls ++ rest)%list /\
    Forall in_result_column rest /\
    inputs s =
      [ St.SliderInt "Story Length";
        St.SliderFloat "Creativity (Temperature)";
        St.TextArea
          "Write your story idea here. The AI will write a story for you.";
        St.Button "✨ Write My Story!" ].
Proof.
  intros s. subst s.
  destruct (run_shape pipe b ss) as (ss' & msg & cs & -> & Hmsg).
  cbn [snd St.page]. exists (msg ++ story_area ss')%list.
  assert (Forall in_result_column (story_area ss')) as Harea.
  { unfold story_area.
    destruct (ss' !! "story") as [[|c text]|]; [constructor | | constructor].
    constructor; [by left |]. constructor; [by right | constructor]. }
  assert (filter (fun x => St.is_input x = true) (map snd (story_area ss'))
          = []) as Hnone.
  { unfold story_area.
    destruct (ss' !! "story") as [[|c text]|]; reflexivity. }
  split; [reflexivity |]. split.
  - apply Forall_app. split; [| exact Harea].
    destruct Hmsg as [-> | [-> | [e ->]]]; repeat constructor; by left.
  - unfold inputs. cbn [snd St.page].
    rewrite !map_app, !filter_app, Hnone.
    destruct Hmsg as [-> | [-> | [e ->]]]; reflexivity.
Qed.

(** X8: an execution shows at most one message: the start-up error, the
    warning for an empty prompt, or the error of a failed call, and never
    two of them. *)
Theorem at_most_one_message load b ss :
  let s := snd (run_script load b ss) in
  (length (errors s) + length (warnings s) <= 1)%nat.
Proof.
  intros s. subst s. destruct load as [e | pipe].
  - rewrite run_load_failed. cbn. lia.
  - destruct (run_shape pipe b ss) as (ss' & msg & cs & -> & Hmsg).
    unfold errors, warnings. cbn [snd St.page].
    rewrite !omap_app, story_area_errors, story_area_warnings.
    destruct Hmsg as [-> | [-> | [e ->]]]; cbn; lia.
Qed.

(** X9: messages are not kept. After any execution, an execution that is
    not a submission shows no error and no warning, and shows again the
    story the earlier execution left in the session dict. *)
Theorem refresh_keeps_story_only load b ss pipe' b' :
  generate_clicked b' = false ->
  let left_behind := St.session_state (snd (run_script load b ss)) in
  let s := snd (run_script (inr pipe') b' left_behind) in
  errors s = [] /\ warnings s = [] /\
  stories s = shown_story left_behind /\
  St.session_state s = left_behind.
Proof.
  intros Hclick left_behind s. subst s.
  rewrite run_idle by done.
  unfold errors, warnings, stories. cbn [snd St.page St.session_state].
  rewrite !omap_app, story_area_errors, story_area_warnings,
    story_area_stories.
  repeat split.
Qed.

Lemma refresh_keeps_story_only_witness :
  errors (snd (run_script (inr broken) robot old_story))
  = ["An error occurred: CUDA out of memory"] /\
  errors (snd (run_script (inr broken) idle
                 (St.session_state
                    (snd (run_script (inr broken) robot old_story))))) = [] /\
  stories (snd (run_script (inr broken) idle
                  (St.session_state
                     (snd (run_script (inr broken) robot old_story)))))
  = ["Once upon a time there was a cat."].
Proof.
  split; [reflexivity |].
  destruct (refresh_keeps_story_only (inr broken) robot old_story broken idle)
    as (Herr & _ & Hshown & _); [reflexivity |].
  split; [exact Herr | exact Hshown].
Defined.

(** ** What a session keeps *)

(** An execution stores the text it got back, and otherwise leaves the
    session dict as it was. *)
Lemma rerun_returned ss x :
  rerun ss x =
  match returned x with
  | Some text => <["story" := text]> ss
  | None => ss
  end.
Proof.
  unfold rerun, returned. destruct x as [[e | pipe] b]; cbn [loaded sent].
  { reflexivity. }
  destruct (generate_clicked b) eqn:Hclick; [| by rewrite run_idle].
  destruct (Py.truthy (prompt_value b)) eqn:Hprompt;
    [| by rewrite run_no_prompt].
  cbn [andb].
  destruct (pipe (request b)) as [e | [| d out]] eqn:Hp.
  - by rewrite (run_failed _ _ _ e); [| | | left].
  - by rewrite (run_failed _ _ _ Py.IndexError); [| | | right; left].
  - destruct (d !! "generated_text") as [text |] eqn:Hd.
    + by rewrite (run_returned _ _ _ d out text).
    + rewrite (run_failed _ _ _ (Py.KeyError "generated_text"));
        [done | done | done |].
      right; right. by exists d, out.
Qed.

(** X10: the session dict of a session is decided by the last execution
    that got a text back: it holds that text alone, and it is empty when no
    execution got one.  Executions that were no submission, had an empty
    prompt, failed, or ran without the model change nothing. *)
Theorem session_is_latest_text xs :
  session xs =
  match latest xs with
  | Some text => {[ "story" := text ]}
  | None => ∅
  end.
Proof.
  unfold session, latest.
  induction xs as [| x xs IH] using rev_ind; [reflexivity |].
  rewrite !foldl_snoc, rerun_returned, IH.
  destruct (returned x) as [text |]; [| reflexivity].
  destruct (foldl _ None xs) as [old |].
  - apply insert_singleton_eq.
  - apply insert_empty.
Qed.


